(** * Xray-core: the release file name script [.github/build/filename.py]

    The script reads four positional arguments from [sys.argv], picks one of
    three [str.format] templates by testing [ARM] and [MISP] against the empty
    string, and prints the result.  It is modelled here as a program in a
    small monad that threads the prints made so far and propagates an
    uncaught exception, and is run as a process with a standard output and an
    exit code.  The stream behind standard output is a parameter of the
    model: its codec may refuse a text and its flush at exit may fail. *)

From Stdlib Require Import String Ascii List Bool Arith ZArith Lia.
Import ListNotations.

Open Scope list_scope.
Open Scope string_scope.

(** ** Exceptions and the interpreter monad *)

Module Py.

(** The exceptions that indexing a list, [str.format] and writing a text to
    a stream can raise. *)
Inductive exn : Type :=
| IndexError
| ValueError
| UnicodeEncodeError
| OSError.

Inductive result (A : Type) : Type :=
| Ok (a : A)
| Raise (e : exn).
Arguments Ok {A} a.
Arguments Raise {A} e.

(** What has been handed to [print] so far, oldest first.  Output written
    before an exception is raised stays written. *)
Definition trace : Type := list string.

Definition M (A : Type) : Type := trace -> trace * result A.

Definition ret {A} (a : A) : M A := fun t => (t, Ok a).

Definition raise {A} (e : exn) : M A := fun t => (t, Raise e).

Definition bind {A B} (m : M A) (k : A -> M B) : M B :=
  fun t =>
    match m t with
    | (t', Ok a) => k a t'
    | (t', Raise e) => (t', Raise e)
    end.

(** A builtin that touches no output, run inside the monad. *)
Definition lift {A} (r : result A) : M A :=
  match r with
  | Ok a => ret a
  | Raise e => raise e
  end.

(** The stream behind [sys.stdout]: what writing a text to it raises, if
    anything ([UnicodeEncodeError] from its codec, [OSError] from the file
    under it), and whether what was buffered gets written out when the
    interpreter flushes the stream at exit (a full device or a closed pipe
    makes that fail). *)
Record stream : Type := mkStream {
  refuses : string -> option exn;
  drains : bool
}.

(** [print(s)] on a stream: a text the stream refuses raises the stream's
    exception and leaves nothing behind; otherwise there is one more entry
    on the trace. *)
Definition print_on (st : stream) (s : string) : M unit :=
  fun t =>
    match refuses st s with
    | None => ((t ++ [s])%list, Ok tt)
    | Some e => (t, Raise e)
    end.

(** A stream that takes every text and can be flushed: byte strings written
    as they are. *)
Definition any_text : stream := {| refuses := fun _ => None; drains := true |}.

(** [print(s)] on such a stream. *)
Definition print (s : string) : M unit := print_on any_text s.

End Py.

Import Py.

Declare Scope py_scope.
Delimit Scope py_scope with py.
Notation "x <- m ;; k" := (bind m (fun x => k))
  (at level 61, m at next level, right associativity) : py_scope.

(** ** The builtins the script calls *)

(** [l[i]] for a literal, non-negative [i]: the element, or [IndexError] past
    the end of the list. *)
Definition getitem (l : list string) (i : nat) : result string :=
  match nth_error l i with
  | Some s => Ok s
  | None => Raise IndexError
  end.

Definition is_lbrace (c : ascii) : bool := Ascii.eqb c "{".
Definition is_rbrace (c : ascii) : bool := Ascii.eqb c "}".

(** [tmpl.format( *args )] on the fragment of templates the script uses:
    literal text, automatically numbered fields [{}], and the escapes for a
    literal brace.  Each field consumes the next positional argument and
    inserts it as it is; a field with no argument left raises [IndexError];
    arguments left over are ignored; a brace that is neither a field nor an
    escape raises [ValueError].  Indexed and named fields, conversions and
    format specifications do not occur in the script and are rejected by this
    model with [ValueError] too. *)
Fixpoint format (tmpl : string) (args : list string) : result string :=
  match tmpl with
  | EmptyString => Ok EmptyString
  | String c rest =>
      if is_lbrace c then
        match rest with
        | EmptyString => Raise ValueError
        | String d rest' =>
            if is_rbrace d then
              match args with
              | [] => Raise IndexError
              | a :: args' =>
                  match format rest' args' with
                  | Ok r => Ok (a ++ r)
                  | Raise e => Raise e
                  end
              end
            else if is_lbrace d then
              match format rest' args with
              | Ok r => Ok (String d r)
              | Raise e => Raise e
              end
            else Raise ValueError
        end
      else if is_rbrace c then
        match rest with
        | EmptyString => Raise ValueError
        | String d rest' =>
            if is_rbrace d then
              match format rest' args with
              | Ok r => Ok (String d r)
              | Raise e => Raise e
              end
            else Raise ValueError
        end
      else
        match format rest args with
        | Ok r => Ok (String c r)
        | Raise e => Raise e
        end
  end.

(** ** The script *)

(** The body of [filename.py], with standard output on the stream [st];
    [argv] is [sys.argv], so [argv[0]] is the script's own name and the
    positional arguments start at index 1. *)
Definition main_on (st : stream) (argv : list string) : M unit :=
  (OS <- lift (getitem argv 1) ;;
   ARCH <- lift (getitem argv 2) ;;
   ARM <- lift (getitem argv 3) ;;
   MISP <- lift (getitem argv 4) ;;
   if negb (ARM =? "") then
     s <- lift (format "Xray-{}-armv{}" [OS; ARM]) ;;
     print_on st s
   else if negb (MISP =? "") then
     s <- lift (format "Xray-{}-{}-{}" [OS; ARCH; MISP]) ;;
     print_on st s
   else
     s <- lift (format "Xray-{}-{}" [OS; ARCH]) ;;
     print_on st s)%py.

(** The script on a stream that takes every text and can be flushed. *)
Definition main (argv : list string) : M unit := main_on any_text argv.

(** ** Running the script as a process *)

Definition newline : string := String (ascii_of_nat 10) EmptyString.

(** What the prints of a trace put on standard output: each entry followed
    by a newline. *)
Fixpoint render (t : trace) : string :=
  match t with
  | [] => EmptyString
  | s :: t' => s ++ newline ++ render t'
  end.

Record process : Type := mkProcess {
  stdout : string;
  exit_code : Z
}.

(** The interpreter exits with 0 when the script runs to its end and with 1
    on an uncaught exception. *)
Definition status {A} (r : result A) : Z :=
  match r with
  | Ok _ => 0%Z
  | Raise _ => 1%Z
  end.

(** A run of the script on the stream [st].  When the script has ended the
    interpreter flushes the stream: with nothing buffered there is nothing
    to fail; a flush that fails loses the buffered output and makes the exit
    code 120. *)
Definition run_on (st : stream) (argv : list string) : process :=
  let '(t, r) := main_on st argv [] in
  match t with
  | [] => {| stdout := EmptyString; exit_code := status r |}
  | _ :: _ =>
      if drains st then {| stdout := render t; exit_code := status r |}
      else {| stdout := EmptyString; exit_code := 120 |}
  end.

(** A run on a stream that takes every text and can be flushed. *)
Definition run (argv : list string) : process := run_on any_text argv.

(** A stream with the ASCII codec and strict error handling: a text is
    encoded only if all its bytes are below 128. *)
Definition is_ascii (c : ascii) : bool :=
  match c with
  | Ascii _ _ _ _ _ _ _ b7 => negb b7
  end.

Fixpoint all_ascii (s : string) : bool :=
  match s with
  | EmptyString => true
  | String c s' => is_ascii c && all_ascii s'
  end.

Definition ascii_strict : stream :=
  {| refuses := fun s => if all_ascii s then None else Some UnicodeEncodeError;
     drains := true |}.

(** A stream onto a full device: every text is encoded and buffered, and
    the flush at exit fails. *)
Definition full_device : stream :=
  {| refuses := fun _ => None; drains := false |}.

(** The number of lines in a text: its newline characters. *)
Fixpoint count_newlines (s : string) : nat :=
  match s with
  | EmptyString => 0
  | String c s' =>
      (if Ascii.eqb c (ascii_of_nat 10) then 1 else 0) + count_newlines s'
  end.

(** Whether a character occurs in a text. *)
Fixpoint occurs (c : ascii) (s : string) : bool :=
  match s with
  | EmptyString => false
  | String d s' => Ascii.eqb d c || occurs c s'
  end.

(** ** The contract of the specification *)

(** The formatter as the specification words it: the ARM version first, then
    the variant suffix, then the plain name. *)
Definition formatter_spec (os arch arm variant : string) : string :=
  if negb (arm =? "") then "Xray-" ++ os ++ "-armv" ++ arm
  else if negb (variant =? "") then "Xray-" ++ os ++ "-" ++ arch ++ "-" ++ variant
  else "Xray-" ++ os ++ "-" ++ arch.

(** ** Strings *)

Lemma append_empty_r (s : string) : s ++ "" = s.
Proof.
  induction s as [|c s IH]; simpl; [reflexivity | now rewrite IH].
Qed.

Lemma append_assoc (a b c : string) : (a ++ b) ++ c = a ++ b ++ c.
Proof.
  induction a as [|x a IH]; simpl; [reflexivity | now rewrite IH].
Qed.

Lemma count_newlines_app (a b : string) :
  count_newlines (a ++ b) = count_newlines a + count_newlines b.
Proof.
  induction a as [|x a IH]; simpl; [reflexivity | rewrite IH; lia].
Qed.

Lemma prefix_app (p s : string) : prefix p (p ++ s) = true.
Proof.
  induction p as [|x p IH]; simpl.
  - now destruct s.
  - destruct (ascii_dec x x) as [_|ne]; [exact IH | now elim ne].
Qed.

(** Brings both sides of an equation between concatenations to the
    right-nested form. *)
Ltac append_norm :=
  rewrite ?append_assoc; cbn [append]; rewrite ?append_assoc; reflexivity.

(** ** The three templates *)

Lemma format_arm (os arm : string) :
  format "Xray-{}-armv{}" [os; arm] = Ok ("Xray-" ++ os ++ "-armv" ++ arm).
Proof.
  cbn. now rewrite append_empty_r.
Qed.

Lemma format_misp (os arch misp : string) :
  format "Xray-{}-{}-{}" [os; arch; misp] =
  Ok ("Xray-" ++ os ++ "-" ++ arch ++ "-" ++ misp).
Proof.
  cbn. now rewrite append_empty_r.
Qed.

Lemma format_plain (os arch : string) :
  format "Xray-{}-{}" [os; arch] = Ok ("Xray-" ++ os ++ "-" ++ arch).
Proof.
  cbn. now rewrite append_empty_r.
Qed.

(** ** The script against the contract *)

(** A list of at least five entries is [sys.argv] of an invocation with
    four positional arguments, possibly followed by more. *)
Lemma argv_shape (argv : list string) :
  5 <= length argv ->
  exists script os arch arm variant extra,
    argv = script :: os :: arch :: arm :: variant :: extra.
Proof.
  intros H.
  destruct argv as [|a0 [|a1 [|a2 [|a3 [|a4 extra]]]]]; simpl in H; try lia.
  now exists a0, a1, a2, a3, a4, extra.
Qed.

(** On any stream, with four positional arguments the script gets to its
    print with the name the contract gives: the reads, the tests and the
    formatting raise nothing. *)
Lemma main_on_reaches_print (st : stream)
      (script os arch arm variant : string)
      (extra : list string) (t : trace) :
  main_on st (script :: os :: arch :: arm :: variant :: extra) t =
  print_on st (formatter_spec os arch arm variant) t.
Proof.
  unfold main_on, formatter_spec, bind, lift, getitem, ret, raise.
  cbn [nth_error].
  destruct (negb (arm =? "")).
  - now rewrite format_arm.
  - destruct (negb (variant =? "")).
    + now rewrite format_misp.
    + now rewrite format_plain.
Qed.

(** On any stream, with fewer the first missing index raises before anything
    is printed. *)
Lemma main_on_short (st : stream) (argv : list string) (t : trace) :
  length argv < 5 -> main_on st argv t = (t, Raise IndexError).
Proof.
  intros H.
  destruct argv as [|a0 [|a1 [|a2 [|a3 [|a4 extra]]]]]; simpl in H;
    try lia; reflexivity.
Qed.

(** With four positional arguments and a stream that takes every text the
    script makes one print, of the name the contract gives, after whatever
    was printed before, and ends normally. *)
Lemma main_refines (script os arch arm variant : string)
      (extra : list string) (t : trace) :
  main (script :: os :: arch :: arm :: variant :: extra) t =
  ((t ++ [formatter_spec os arch arm variant])%list, Ok tt).
Proof.
  unfold main. now rewrite main_on_reaches_print.
Qed.

Lemma run_refines (script os arch arm variant : string)
      (extra : list string) :
  run (script :: os :: arch :: arm :: variant :: extra) =
  {| stdout := formatter_spec os arch arm variant ++ newline;
     exit_code := 0 |}.
Proof.
  unfold run, run_on.
  fold (main (script :: os :: arch :: arm :: variant :: extra)).
  rewrite main_refines. cbn [app render status any_text drains].
  now rewrite append_empty_r.
Qed.

(** ** The three branches *)

(** C1: when the ARM version is not the empty string the program prints
    "Xray-{os}-armv{arm}" and exits with 0, whatever the operating system,
    the architecture and the variant are; the ARM branch comes before the
    variant branch, and replacing the architecture and the variant by any
    other strings leaves the run as it is. *)
Theorem arm_branch_output (script os arch arm variant : string)
        (extra : list string) :
  arm <> "" ->
  run (script :: os :: arch :: arm :: variant :: extra) =
    {| stdout := "Xray-" ++ os ++ "-armv" ++ arm ++ newline; exit_code := 0 |}
  /\ forall arch' variant',
       run (script :: os :: arch' :: arm :: variant' :: extra) =
       run (script :: os :: arch :: arm :: variant :: extra).
Proof.
  intros Harm. apply String.eqb_neq in Harm.
  assert (Hrun : forall a v,
             run (script :: os :: a :: arm :: v :: extra) =
             {| stdout := "Xray-" ++ os ++ "-armv" ++ arm ++ newline;
                exit_code := 0 |}).
  { intros a v. rewrite run_refines. unfold formatter_spec. rewrite Harm.
    cbn [negb]. append_norm. }
  split; [apply Hrun|].
  intros a v. now rewrite !Hrun.
Qed.

Lemma arm_branch_output_witness :
  "5" <> "" /\
  run ["filename.py"; "linux"; "arm32"; "5"; "v8a"] =
    {| stdout := "Xray-linux-armv5" ++ newline; exit_code := 0 |}.
Proof.
  split; [discriminate|].
  apply (arm_branch_output "filename.py" "linux" "arm32" "5" "v8a" []).
  discriminate.
Defined.

(** C2: when the ARM version is the empty string and the variant is not, the
    program prints "Xray-{os}-{arch}-{variant}" and exits with 0, whatever
    the operating system and the architecture are. *)
Theorem variant_branch_output (script os arch variant : string)
        (extra : list string) :
  variant <> "" ->
  run (script :: os :: arch :: "" :: variant :: extra) =
    {| stdout := "Xray-" ++ os ++ "-" ++ arch ++ "-" ++ variant ++ newline;
       exit_code := 0 |}.
Proof.
  intros Hv. apply String.eqb_neq in Hv.
  rewrite run_refines. unfold formatter_spec. rewrite Hv.
  cbn [String.eqb negb]. append_norm.
Qed.

Lemma variant_branch_output_witness :
  "v8a" <> "" /\
  run ["filename.py"; "android"; "arm64"; ""; "v8a"] =
    {| stdout := "Xray-android-arm64-v8a" ++ newline; exit_code := 0 |}.
Proof.
  split; [discriminate|].
  apply (variant_branch_output "filename.py" "android" "arm64" "v8a" []).
  discriminate.
Defined.

(** C3: when the ARM version and the variant are both the empty string the
    program prints "Xray-{os}-{arch}" and exits with 0, whatever the
    operating system and the architecture are. *)
Theorem default_branch_output (script os arch : string)
        (extra : list string) :
  run (script :: os :: arch :: "" :: "" :: extra) =
    {| stdout := "Xray-" ++ os ++ "-" ++ arch ++ newline; exit_code := 0 |}.
Proof.
  rewrite run_refines. unfold formatter_spec.
  cbn [String.eqb negb]. append_norm.
Qed.

(** ** Missing arguments *)

(** C4, as the specification states it, fails in its last part: missing
    arguments are not the only way for a run to fail.  With four arguments,
    one of them holding the byte 255, and standard output on a strict ASCII
    stream, the print raises [UnicodeEncodeError]: nothing is written and
    the exit code is 1. *)
Lemma four_arguments_encode_error :
  5 <= length ["filename.py"; "linux"; String (ascii_of_nat 255) ""; ""; ""]
  /\ main_on ascii_strict
       ["filename.py"; "linux"; String (ascii_of_nat 255) ""; ""; ""] [] =
     ([], Raise UnicodeEncodeError)
  /\ run_on ascii_strict
       ["filename.py"; "linux"; String (ascii_of_nat 255) ""; ""; ""] =
     {| stdout := ""; exit_code := 1 |}.
Proof.
  split; [simpl; lia|]. split; reflexivity.
Qed.

(** C4, amended: on any stream, with fewer than four positional arguments
    (fewer than five entries in [sys.argv]) the first missing index raises
    [IndexError] before anything is printed, so standard output stays empty
    and the exit code is 1.  It is the only error of the script's own
    statements: with four or more arguments the reads, the tests and the
    formatting raise nothing and the run comes down to one print; an
    exception of the script is then the one the stream raises when it
    refuses the printed text, and either exception leaves the output as it
    was. *)
Theorem missing_argument_error (st : stream) (argv : list string) :
  (length argv < 5 ->
     (forall t, main_on st argv t = (t, Raise IndexError)) /\
     run_on st argv = {| stdout := ""; exit_code := 1 |}) /\
  (5 <= length argv ->
     exists name, forall t, main_on st argv t = print_on st name t) /\
  (forall t t' e,
     main_on st argv t = (t', Raise e) ->
     t' = t /\
     ((e = IndexError /\ length argv < 5) \/
      (5 <= length argv /\ exists name, refuses st name = Some e))).
Proof.
  split; [|split].
  - intros H. split; [intros t; now apply main_on_short|].
    unfold run_on. now rewrite main_on_short.
  - intros H.
    destruct (argv_shape argv H) as (s & os & arch & arm & v & ex & ->).
    exists (formatter_spec os arch arm v).
    intros t. apply main_on_reaches_print.
  - intros t t' e Hm.
    destruct (Nat.lt_ge_cases (length argv) 5) as [H|H].
    + rewrite main_on_short in Hm by assumption.
      injection Hm as <- <-. split; [reflexivity | now left].
    + destruct (argv_shape argv H) as (s & os & arch & arm & v & ex & ->).
      rewrite main_on_reaches_print in Hm. unfold print_on in Hm.
      destruct (refuses st (formatter_spec os arch arm v)) as [e'|] eqn:Hr;
        [|discriminate].
      injection Hm as <- <-. split; [reflexivity|].
      right. split; [assumption|]. now exists (formatter_spec os arch arm v).
Qed.

Lemma missing_argument_error_witness :
  (length ["filename.py"; "linux"; "amd64"; ""] < 5 /\
   run_on ascii_strict ["filename.py"; "linux"; "amd64"; ""] =
     {| stdout := ""; exit_code := 1 |}) /\
  (5 <= length ["filename.py"; "linux"; "amd64"; ""; ""] /\
   exists name, forall t,
     main_on ascii_strict ["filename.py"; "linux"; "amd64"; ""; ""] t =
     print_on ascii_strict name t) /\
  (main_on ascii_strict
     ["filename.py"; "linux"; String (ascii_of_nat 233) ""; ""; ""]
     ["earlier"] = (["earlier"], Raise UnicodeEncodeError) /\
   ["earlier"] = ["earlier"] /\
   ((UnicodeEncodeError = IndexError /\
     length ["filename.py"; "linux"; String (ascii_of_nat 233) ""; ""; ""]
       < 5) \/
    (5 <= length
            ["filename.py"; "linux"; String (ascii_of_nat 233) ""; ""; ""] /\
     exists name, refuses ascii_strict name = Some UnicodeEncodeError))).
Proof.
  split; [|split].
  - split; [simpl; lia|].
    apply (proj1 (missing_argument_error
                    ascii_strict ["filename.py"; "linux"; "amd64"; ""])).
    simpl; lia.
  - split; [simpl; lia|].
    apply (proj1 (proj2 (missing_argument_error
                           ascii_strict
                           ["filename.py"; "linux"; "amd64"; ""; ""]))).
    simpl; lia.
  - split; [reflexivity|].
    apply (proj2 (proj2 (missing_argument_error
                           ascii_strict
                           ["filename.py"; "linux";
                            String (ascii_of_nat 233) ""; ""; ""]))
             ["earlier"] ["earlier"] UnicodeEncodeError).
    reflexivity.
Defined.

(** ** Four arguments *)

(** C5, as the specification states it, fails: with four arguments a run can
    still fail in its print.  On a strict ASCII stream an ARM version
    holding the two bytes of a UTF-8 letter raises [UnicodeEncodeError]
    (exit code 1, nothing written); on a full device the print goes through
    and the flush at exit fails (exit code 120, nothing written). *)
Lemma four_arguments_can_fail :
  run_on ascii_strict
    ["filename.py"; "linux"; "arm";
     String (ascii_of_nat 195) (String (ascii_of_nat 169) ""); ""] =
    {| stdout := ""; exit_code := 1 |}
  /\ run_on full_device ["filename.py"; "linux"; "amd64"; ""; ""] =
       {| stdout := ""; exit_code := 120 |}.
Proof.
  split; reflexivity.
Qed.

(** C5, amended: with at least four positional arguments the script's own
    steps fail for no values of them: nothing but the two tests against the
    empty string is looked at, so on any stream the run is the one print of
    the formatted name.  It writes that name and exits with 0 when the
    stream takes the name and can be flushed; when the stream refuses the
    name nothing is written and the exit code is 1; when the flush fails
    nothing is written and the exit code is 120. *)
Theorem four_arguments_reach_print (st : stream)
        (script os arch arm variant : string) (extra : list string) :
  (forall t,
     main_on st (script :: os :: arch :: arm :: variant :: extra) t =
     print_on st (formatter_spec os arch arm variant) t) /\
  (refuses st (formatter_spec os arch arm variant) = None ->
   drains st = true ->
   run_on st (script :: os :: arch :: arm :: variant :: extra) =
     {| stdout := formatter_spec os arch arm variant ++ newline;
        exit_code := 0 |}) /\
  (forall e,
     refuses st (formatter_spec os arch arm variant) = Some e ->
     main_on st (script :: os :: arch :: arm :: variant :: extra) [] =
       ([], Raise e) /\
     run_on st (script :: os :: arch :: arm :: variant :: extra) =
       {| stdout := ""; exit_code := 1 |}) /\
  (refuses st (formatter_spec os arch arm variant) = None ->
   drains st = false ->
   run_on st (script :: os :: arch :: arm :: variant :: extra) =
     {| stdout := ""; exit_code := 120 |}).
Proof.
  split; [intros t; apply main_on_reaches_print|].
  unfold run_on. rewrite main_on_reaches_print. unfold print_on.
  split; [|split].
  - intros -> ->. cbn [app render status]. now rewrite append_empty_r.
  - now intros e ->.
  - now intros -> ->.
Qed.

Lemma four_arguments_reach_print_witness :
  (refuses ascii_strict (formatter_spec "linux" "mips" "0x" "-1") = None /\
   drains ascii_strict = true /\
   run_on ascii_strict ["filename.py"; "linux"; "mips"; "0x"; "-1"] =
     {| stdout := formatter_spec "linux" "mips" "0x" "-1" ++ newline;
        exit_code := 0 |}) /\
  (refuses ascii_strict
     (formatter_spec "linux" (String (ascii_of_nat 255) "") "" "") =
     Some UnicodeEncodeError /\
   run_on ascii_strict
     ["filename.py"; "linux"; String (ascii_of_nat 255) ""; ""; ""] =
     {| stdout := ""; exit_code := 1 |}) /\
  (refuses full_device (formatter_spec "linux" "amd64" "" "v8a") = None /\
   drains full_device = false /\
   run_on full_device ["filename.py"; "linux"; "amd64"; ""; "v8a"] =
     {| stdout := ""; exit_code := 120 |}).
Proof.
  split; [|split].
  - do 2 (split; [reflexivity|]).
    apply (proj1 (proj2 (four_arguments_reach_print
                           ascii_strict "filename.py" "linux" "mips" "0x"
                           "-1" [])));
      reflexivity.
  - split; [reflexivity|].
    apply (proj1 (proj2 (proj2 (four_arguments_reach_print
                                  ascii_strict "filename.py" "linux"
                                  (String (ascii_of_nat 255) "") "" "" [])))
             UnicodeEncodeError).
    reflexivity.
  - do 2 (split; [reflexivity|]).
    apply (proj2 (proj2 (proj2 (four_arguments_reach_print
                                  full_device "filename.py" "linux" "amd64"
                                  "" "v8a" []))));
      reflexivity.
Defined.

(** The ARM version and the variant are plain text to the script: "0" is
    not empty, and text that is no number is used as it is. *)
Example arm_zero_is_not_empty :
  run ["filename.py"; "linux"; "arm"; "0"; ""] =
    {| stdout := "Xray-linux-armv0" ++ newline; exit_code := 0 |}.
Proof. reflexivity. Qed.

Example arm_not_a_number :
  run ["filename.py"; "linux"; "arm"; "seven"; " "] =
    {| stdout := "Xray-linux-armvseven" ++ newline; exit_code := 0 |}.
Proof. reflexivity. Qed.

(** ** Determinism *)

(** C6: the output is a function of the four arguments alone: two runs given
    the same operating system, architecture, ARM version and variant, under
    any script names, any further arguments and after any earlier output,
    print the same one name and end the same way. *)
Theorem output_depends_on_four_arguments_only
        (script1 script2 os arch arm variant : string)
        (extra1 extra2 : list string) (t1 t2 : trace) :
  (exists name,
     main (script1 :: os :: arch :: arm :: variant :: extra1) t1 =
       ((t1 ++ [name])%list, Ok tt) /\
     main (script2 :: os :: arch :: arm :: variant :: extra2) t2 =
       ((t2 ++ [name])%list, Ok tt)) /\
  run (script1 :: os :: arch :: arm :: variant :: extra1) =
  run (script2 :: os :: arch :: arm :: variant :: extra2).
Proof.
  split.
  - exists (formatter_spec os arch arm variant). now rewrite !main_refines.
  - now rewrite !run_refines.
Qed.

(** ** Effects of a successful run *)

Lemma count_newlines_formatter_spec (os arch arm variant : string) :
  count_newlines os = 0 -> count_newlines arch = 0 ->
  count_newlines arm = 0 -> count_newlines variant = 0 ->
  count_newlines (formatter_spec os arch arm variant) = 0.
Proof.
  intros Hos Harch Harm Hv. unfold formatter_spec.
  destruct (negb (arm =? "")); [|destruct (negb (variant =? ""))];
    cbn [append count_newlines Ascii.eqb Bool.eqb ascii_of_nat ascii_of_pos
         Pos.of_succ_nat Pos.succ Init.Nat.add];
    rewrite ?count_newlines_app;
    cbn [append count_newlines Ascii.eqb Bool.eqb ascii_of_nat ascii_of_pos
         Pos.of_succ_nat Pos.succ Init.Nat.add];
    rewrite ?count_newlines_app; simpl; lia.
Qed.

(** C7, as the specification states it, fails: the arguments are inserted
    as they are, so a newline inside one of them ends up on standard output
    and a successful run writes more than one line. *)
Lemma newline_in_argument_two_lines :
  exit_code (run ["filename.py"; "a" ++ newline ++ "b"; "amd64"; ""; ""]) = 0%Z
  /\ stdout (run ["filename.py"; "a" ++ newline ++ "b"; "amd64"; ""; ""]) =
       "Xray-a" ++ newline ++ "b-amd64" ++ newline
  /\ count_newlines
       (stdout (run ["filename.py"; "a" ++ newline ++ "b"; "amd64"; ""; ""]))
     <> 1.
Proof.
  split; [reflexivity|].
  split; [reflexivity|].
  vm_compute. discriminate.
Qed.

(** C7, amended: on every run with four or more arguments exactly one print
    is made, after whatever was printed before and with no other effect, so
    standard output is the formatted name followed by one newline; that is
    exactly one line whenever none of the four arguments holds a newline
    character. *)
Theorem one_print_per_run (script os arch arm variant : string)
        (extra : list string) :
  exists name,
    (forall t : trace,
        main (script :: os :: arch :: arm :: variant :: extra) t =
        ((t ++ [name])%list, Ok tt)) /\
    stdout (run (script :: os :: arch :: arm :: variant :: extra)) =
      name ++ newline /\
    (count_newlines os = 0 -> count_newlines arch = 0 ->
     count_newlines arm = 0 -> count_newlines variant = 0 ->
     count_newlines
       (stdout (run (script :: os :: arch :: arm :: variant :: extra))) = 1).
Proof.
  exists (formatter_spec os arch arm variant).
  split; [intros t; apply main_refines|].
  rewrite run_refines. cbn [stdout]. split; [reflexivity|].
  intros Hos Harch Harm Hv.
  rewrite count_newlines_app, count_newlines_formatter_spec by assumption.
  reflexivity.
Qed.

Lemma one_print_per_run_witness :
  count_newlines "darwin" = 0 /\ count_newlines "arm64" = 0 /\
  count_newlines "" = 0 /\ count_newlines "v8a" = 0 /\
  count_newlines
    (stdout (run ["filename.py"; "darwin"; "arm64"; ""; "v8a"])) = 1.
Proof.
  destruct (one_print_per_run "filename.py" "darwin" "arm64" "" "v8a" [])
    as (name & _ & _ & Hline).
  do 4 (split; [reflexivity|]).
  apply Hline; reflexivity.
Defined.

(** ** A concrete case *)

(** C8: run on ("windows", "386", "7", "") the program prints
    "Xray-windows-armv7": the ARM branch is taken and the architecture "386"
    occurs nowhere in the output. *)
Theorem windows_386_arm7 :
  run ["filename.py"; "windows"; "386"; "7"; ""] =
    {| stdout := "Xray-windows-armv7" ++ newline; exit_code := 0 |}
  /\ String.index 0 "386"
       (stdout (run ["filename.py"; "windows"; "386"; "7"; ""])) = None.
Proof.
  split; reflexivity.
Qed.

(** ** Further arguments *)

(** C9: arguments after the fourth are ignored: with any further arguments
    the standard output and the exit code are those of the run on the first
    four alone. *)
Theorem extra_arguments_ignored (script os arch arm variant : string)
        (extra : list string) :
  run (script :: os :: arch :: arm :: variant :: extra) =
  run [script; os; arch; arm; variant].
Proof.
  now rewrite !run_refines.
Qed.

(** ** The prefix *)

(** C10: on every run with at least four arguments the output starts with
    "Xray-", whatever the arguments are (all empty included), and the
    arguments stand in it as they were given: the output is the prefix, the
    operating system, and one of the three tails built from the other
    arguments unchanged. *)
Theorem output_starts_with_xray (argv : list string) :
  5 <= length argv ->
  prefix "Xray-" (stdout (run argv)) = true /\
  exists os arch arm variant,
    nth_error argv 1 = Some os /\ nth_error argv 2 = Some arch /\
    nth_error argv 3 = Some arm /\ nth_error argv 4 = Some variant /\
    (stdout (run argv) = "Xray-" ++ os ++ "-armv" ++ arm ++ newline \/
     stdout (run argv) =
       "Xray-" ++ os ++ "-" ++ arch ++ "-" ++ variant ++ newline \/
     stdout (run argv) = "Xray-" ++ os ++ "-" ++ arch ++ newline).
Proof.
  intros H.
  destruct (argv_shape argv H) as (s & os & arch & arm & v & ex & ->).
  rewrite run_refines. cbn [stdout].
  split.
  - unfold formatter_spec.
    destruct (negb (arm =? "")); [|destruct (negb (v =? ""))];
      rewrite append_assoc; apply prefix_app.
  - exists os, arch, arm, v. repeat (split; [reflexivity|]).
    unfold formatter_spec.
    destruct (negb (arm =? "")); [|destruct (negb (v =? ""))].
    + left. append_norm.
    + right; left. append_norm.
    + right; right. append_norm.
Qed.

Lemma output_starts_with_xray_witness :
  5 <= length ["filename.py"; ""; ""; ""; ""] /\
  prefix "Xray-" (stdout (run ["filename.py"; ""; ""; ""; ""])) = true.
Proof.
  split; [simpl; lia|].
  apply (output_starts_with_xray ["filename.py"; ""; ""; ""; ""]).
  simpl; lia.
Defined.

(** With all four arguments empty only the literal text of the template is
    left. *)
Example all_empty_arguments :
  run ["filename.py"; ""; ""; ""; ""] =
    {| stdout := "Xray--" ++ newline; exit_code := 0 |}.
Proof. reflexivity. Qed.

(** Braces, spaces and slashes in an argument are not read again as template
    text, nor escaped. *)
Example braces_stay_as_given :
  run ["filename.py"; "{}"; "a/../b"; ""; "{0} }"] =
    {| stdout := "Xray-{}-a/../b-{0} }" ++ newline; exit_code := 0 |}.
Proof. reflexivity. Qed.

(** ** Which arguments a name stands for *)

Lemma length_app (a b : string) :
  String.length (a ++ b) = String.length a + String.length b.
Proof.
  induction a as [|x a IH]; simpl; [reflexivity | now rewrite IH].
Qed.

Lemma append_newline_inj (a b : string) :
  a ++ newline = b ++ newline -> a = b.
Proof.
  revert b. induction a as [|x a IH]; intros [|y b] H; simpl in H.
  - reflexivity.
  - injection H as _ H. now destruct b.
  - injection H as _ H. now destruct a.
  - injection H as -> H. f_equal. now apply IH.
Qed.

(** Two texts cut at their first hyphen agree piece by piece. *)
Lemma split_at_hyphen (a b x y : string) :
  occurs "-" a = false -> occurs "-" b = false ->
  a ++ String "-" x = b ++ String "-" y -> a = b /\ x = y.
Proof.
  revert b. induction a as [|c a IH]; intros [|d b] Ha Hb H;
    simpl in Ha, Hb, H.
  - injection H as ->. now split.
  - injection H as <- _. apply orb_false_iff in Hb as [Hd _].
    now rewrite Ascii.eqb_refl in Hd.
  - injection H as -> _. apply orb_false_iff in Ha as [Hc _].
    now rewrite Ascii.eqb_refl in Hc.
  - injection H as -> H.
    apply orb_false_iff in Ha as [_ Ha]. apply orb_false_iff in Hb as [_ Hb].
    destruct (IH b Ha Hb H) as [-> ->]. now split.
Qed.

Lemma run_stdout_eq (argv1 argv2 : list string) :
  run argv1 = run argv2 -> stdout (run argv1) = stdout (run argv2).
Proof.
  now intros ->.
Qed.

Lemma formatter_spec_arm (os arch arm variant : string) :
  arm <> "" ->
  formatter_spec os arch arm variant = "Xray-" ++ os ++ "-armv" ++ arm.
Proof.
  intros H. apply String.eqb_neq in H. unfold formatter_spec. now rewrite H.
Qed.

Lemma formatter_spec_variant (os arch variant : string) :
  variant <> "" ->
  formatter_spec os arch "" variant =
  "Xray-" ++ os ++ "-" ++ arch ++ "-" ++ variant.
Proof.
  intros H. apply String.eqb_neq in H. unfold formatter_spec.
  now rewrite H.
Qed.

Lemma formatter_spec_default (os arch : string) :
  formatter_spec os arch "" "" = "Xray-" ++ os ++ "-" ++ arch.
Proof.
  reflexivity.
Qed.

(** *** Names shared between branches *)

(** X1: the name printed for a non-empty ARM version is the name the default
    branch prints for the architecture "armv{arm}": the two runs have the
    same standard output and exit code. *)
Theorem arm_name_is_a_default_name (script os arch arm variant : string)
        (extra : list string) :
  arm <> "" ->
  run (script :: os :: arch :: arm :: variant :: extra) =
  run [script; os; "armv" ++ arm; ""; ""].
Proof.
  intros Harm.
  rewrite !run_refines, formatter_spec_default.
  rewrite (formatter_spec_arm os arch arm variant Harm).
  f_equal.
Qed.

Lemma arm_name_is_a_default_name_witness :
  "7" <> "" /\
  run ["filename.py"; "linux"; "arm32"; "7"; ""] =
  run ["filename.py"; "linux"; "armv" ++ "7"; ""; ""].
Proof.
  split; [discriminate|].
  apply (arm_name_is_a_default_name "filename.py" "linux" "arm32" "7" "" []).
  discriminate.
Defined.

(** X2: the name printed for an empty ARM version and a non-empty variant is
    the name the default branch prints for the architecture
    "{arch}-{variant}". *)
Theorem variant_name_is_a_default_name (script os arch variant : string)
        (extra : list string) :
  variant <> "" ->
  run (script :: os :: arch :: "" :: variant :: extra) =
  run [script; os; arch ++ "-" ++ variant; ""; ""].
Proof.
  intros Hv.
  rewrite !run_refines, formatter_spec_default.
  rewrite (formatter_spec_variant os arch variant Hv).
  reflexivity.
Qed.

Lemma variant_name_is_a_default_name_witness :
  "v8a" <> "" /\
  run ["filename.py"; "android"; "arm64"; ""; "v8a"] =
  run ["filename.py"; "android"; "arm64" ++ "-" ++ "v8a"; ""; ""].
Proof.
  split; [discriminate|].
  apply (variant_name_is_a_default_name
           "filename.py" "android" "arm64" "v8a" []).
  discriminate.
Defined.

(** X3: a hyphen inside the operating system name is not told apart from
    the separator: in the default branch the arguments ("a-b", c) and
    (a, "b-c") give the same run. *)
Theorem hyphen_regroups (script1 script2 a b c : string)
        (extra1 extra2 : list string) :
  run (script1 :: (a ++ "-" ++ b) :: c :: "" :: "" :: extra1) =
  run (script2 :: a :: (b ++ "-" ++ c) :: "" :: "" :: extra2).
Proof.
  rewrite !run_refines, !formatter_spec_default.
  f_equal. f_equal. append_norm.
Qed.

(** *** Names that determine their arguments *)

(** X4: in the default branch, between operating system names without a
    hyphen, equal runs come from equal arguments: the operating system and
    the architecture can be read back from the output. *)
Theorem default_name_determines_arguments
        (script1 script2 os1 arch1 os2 arch2 : string)
        (extra1 extra2 : list string) :
  occurs "-" os1 = false -> occurs "-" os2 = false ->
  run (script1 :: os1 :: arch1 :: "" :: "" :: extra1) =
  run (script2 :: os2 :: arch2 :: "" :: "" :: extra2) ->
  os1 = os2 /\ arch1 = arch2.
Proof.
  intros H1 H2 Hrun. apply run_stdout_eq in Hrun.
  rewrite !run_refines, !formatter_spec_default in Hrun. cbn [stdout] in Hrun.
  rewrite !append_assoc in Hrun. cbn [append] in Hrun.
  injection Hrun as Hrun.
  destruct (split_at_hyphen _ _ _ _ H1 H2 Hrun) as [-> Harch].
  split; [reflexivity | now apply append_newline_inj].
Qed.

Lemma default_name_determines_arguments_witness :
  occurs "-" "linux" = false /\
  run ["filename.py"; "linux"; "amd64"; ""; ""] =
  run ["./filename.py"; "linux"; "amd64"; ""; ""; "more"] /\
  "linux" = "linux" /\ "amd64" = "amd64".
Proof.
  split; [reflexivity|]. split; [reflexivity|].
  apply (default_name_determines_arguments
           "filename.py" "./filename.py" "linux" "amd64" "linux" "amd64"
           [] ["more"]); reflexivity.
Defined.

(** X5: in the ARM branch, between operating system names without a hyphen,
    equal runs come from the same operating system and the same ARM
    version. *)
Theorem arm_name_determines_arguments
        (script1 script2 os1 arch1 arm1 variant1 os2 arch2 arm2 variant2
           : string)
        (extra1 extra2 : list string) :
  arm1 <> "" -> arm2 <> "" ->
  occurs "-" os1 = false -> occurs "-" os2 = false ->
  run (script1 :: os1 :: arch1 :: arm1 :: variant1 :: extra1) =
  run (script2 :: os2 :: arch2 :: arm2 :: variant2 :: extra2) ->
  os1 = os2 /\ arm1 = arm2.
Proof.
  intros Ha1 Ha2 H1 H2 Hrun. apply run_stdout_eq in Hrun.
  rewrite !run_refines in Hrun.
  rewrite (formatter_spec_arm os1 arch1 arm1 variant1 Ha1) in Hrun.
  rewrite (formatter_spec_arm os2 arch2 arm2 variant2 Ha2) in Hrun.
  cbn [stdout] in Hrun.
  rewrite !append_assoc in Hrun. cbn [append] in Hrun.
  injection Hrun as Hrun.
  destruct (split_at_hyphen _ _ _ _ H1 H2 Hrun) as [-> Harm].
  injection Harm as Harm.
  split; [reflexivity | now apply append_newline_inj].
Qed.

Lemma arm_name_determines_arguments_witness :
  "7" <> "" /\ occurs "-" "linux" = false /\
  run ["filename.py"; "linux"; "arm32"; "7"; ""] =
  run ["filename.py"; "linux"; "arm64"; "7"; "v8a"] /\
  "linux" = "linux" /\ "7" = "7".
Proof.
  split; [discriminate|]. split; [reflexivity|]. split; [reflexivity|].
  apply (arm_name_determines_arguments
           "filename.py" "filename.py" "linux" "arm32" "7" ""
           "linux" "arm64" "7" "v8a" [] []);
    try reflexivity; discriminate.
Defined.

(** X6: in the variant branch, between operating system and architecture
    names without a hyphen, equal runs come from the same operating system,
    architecture and variant. *)
Theorem variant_name_determines_arguments
        (script1 script2 os1 arch1 variant1 os2 arch2 variant2 : string)
        (extra1 extra2 : list string) :
  variant1 <> "" -> variant2 <> "" ->
  occurs "-" os1 = false -> occurs "-" os2 = false ->
  occurs "-" arch1 = false -> occurs "-" arch2 = false ->
  run (script1 :: os1 :: arch1 :: "" :: variant1 :: extra1) =
  run (script2 :: os2 :: arch2 :: "" :: variant2 :: extra2) ->
  os1 = os2 /\ arch1 = arch2 /\ variant1 = variant2.
Proof.
  intros Hv1 Hv2 H1 H2 A1 A2 Hrun. apply run_stdout_eq in Hrun.
  rewrite !run_refines in Hrun.
  rewrite (formatter_spec_variant os1 arch1 variant1 Hv1) in Hrun.
  rewrite (formatter_spec_variant os2 arch2 variant2 Hv2) in Hrun.
  cbn [stdout] in Hrun.
  rewrite !append_assoc in Hrun. cbn [append] in Hrun.
  injection Hrun as Hrun.
  destruct (split_at_hyphen _ _ _ _ H1 H2 Hrun) as [-> Hrest].
  destruct (split_at_hyphen _ _ _ _ A1 A2 Hrest) as [-> Hv].
  repeat split. now apply append_newline_inj.
Qed.

Lemma variant_name_determines_arguments_witness :
  "v8a" <> "" /\ occurs "-" "android" = false /\
  occurs "-" "arm64" = false /\
  run ["filename.py"; "android"; "arm64"; ""; "v8a"] =
  run ["filename.py"; "android"; "arm64"; ""; "v8a"; "more"] /\
  "android" = "android" /\ "arm64" = "arm64" /\ "v8a" = "v8a".
Proof.
  do 3 (split; [first [discriminate | reflexivity]|]).
  split; [reflexivity|].
  apply (variant_name_determines_arguments
           "filename.py" "filename.py" "android" "arm64" "v8a"
           "android" "arm64" "v8a" [] ["more"]);
    try reflexivity; discriminate.
Defined.

(** *** The size of the output *)

(** X7: a successful run never writes fewer than seven characters (the
    literal "Xray-", one hyphen and the newline), and writes exactly seven
    only when all four arguments are empty. *)
Theorem output_length_bound (script os arch arm variant : string)
        (extra : list string) :
  7 <= String.length
         (stdout (run (script :: os :: arch :: arm :: variant :: extra))) /\
  (String.length
     (stdout (run (script :: os :: arch :: arm :: variant :: extra))) = 7 <->
   os = "" /\ arch = "" /\ arm = "" /\ variant = "").
Proof.
  rewrite run_refines. cbn [stdout]. unfold formatter_spec.
  destruct arm as [|c arm]; [destruct variant as [|d variant]|];
    cbn [String.eqb negb Ascii.eqb]; rewrite ?length_app;
    cbn [String.length newline].
  - split; [lia|]. split.
    + intros H. destruct os; [|simpl in H; lia].
      destruct arch; [|simpl in H; lia]. now repeat split.
    + now intros (-> & -> & _ & _).
  - split; [lia|]. split; [lia|]. now intros (_ & _ & _ & [=]).
  - split; [lia|]. split; [lia|]. now intros (_ & _ & [=] & _).
Qed.

Lemma output_length_bound_witness :
  ("" = "" /\ "" = "" /\ "" = "" /\ "" = "") /\
  String.length (stdout (run ["filename.py"; ""; ""; ""; ""])) = 7.
Proof.
  split; [now repeat split|].
  apply (proj2 (proj2 (output_length_bound "filename.py" "" "" "" "" []))).
  now repeat split.
Defined.
